(** * The slot-filling dialog of [mbta/mbta.py]

    A shallow embedding of the dialog table ([schedule_slots], [dialog]),
    the two step handlers ([get_next_train], [send_text]), the engine
    [set_context_and_handle] and the views registered for the launch
    request and the intents, followed by their properties.

    Python's [session.attributes] is a dictionary from slot names to
    values; it is modelled as a [gmap string pyval] threaded through a
    state-and-exception monad.  The [print] calls of the source write to
    the standard output only and are left out. *)

From stdpp Require Import base option list strings gmap fin_maps pretty.

(** ** Python values *)

(** The values that reach the engine: a slot name or a slot value is a
    string or [None] (docstring of [set_context_and_handle]); a handler
    returns a string, or [None] when its body is [pass]. *)
Inductive pyval : Type :=
  | PyNone
  | PyStr (s : string).

#[global] Instance pyval_eq_dec : EqDecision pyval.
Proof. solve_decision. Defined.

(** Truth value of an object in a condition: [None] and the empty string
    are false. *)
Definition truthy (v : pyval) : bool :=
  match v with
  | PyNone => false
  | PyStr s => negb (String.eqb s "")
  end.

(** [str(v)], what the conversion [%s] prints. *)
Definition py_str (v : pyval) : string :=
  match v with
  | PyNone => "None"
  | PyStr s => s
  end.

(** ** Exceptions, session state, the monad *)

Inductive exn : Type :=
  | TypeError
  | KeyError (k : string).

Inductive res (A : Type) : Type :=
  | Ok (a : A)
  | Raise (e : exn).
Arguments Ok {A} a.
Arguments Raise {A} e.

(** State and exceptions: a computation reads and writes a state [S] and
    ends in a value or in a raised exception. *)
Definition ST (S A : Type) : Type := S → res A * S.

Definition ret {S A} (a : A) : ST S A := λ s, (Ok a, s).

Definition bind {S A B} (m : ST S A) (f : A → ST S B) : ST S B := λ s,
  match m s with
  | (Ok a, s') => f a s'
  | (Raise e, s') => (Raise e, s')
  end.

Notation "'let!' x := m 'in' k" := (bind m (λ x, k))
  (at level 10, x name, m at level 100, k at level 200,
   format "'[v' 'let!'  x  :=  m  'in'  '/' k ']'").
Notation "m >>> k" := (bind m (λ _, k))
  (at level 90, right associativity, format "'[v' m  >>>  '/' k ']'").

(** Code that runs against [session.attributes]: the handlers. *)
Abbreviation H := (ST (gmap string pyval)).

(** What the engine did during a call, kept beside the session as ghost
    state: [EvStep i] when the body of the outer loop starts on step [i]
    of the dialog, [EvIntent i σ] when the handler of step [i] is called
    in session [σ]. *)
Inductive event : Type :=
  | EvStep (i : nat)
  | EvIntent (i : nat) (σ : gmap string pyval).

Record state : Type := mkState {
  attributes : gmap string pyval;
  trace : list event
}.

Definition init (σ : gmap string pyval) : state := mkState σ [].

Abbreviation M := (ST state).

Definition raise {A} (e : exn) : M A := λ st, (Raise e, st).

Definition emit (ev : event) : M () :=
  λ st, (Ok (), mkState (attributes st) (trace st ++ [ev])).

(** Runs handler code on the session, leaving the ghost trace alone. *)
Definition lift {A} (h : H A) : M A := λ st,
  let '(r, σ) := h (attributes st) in (r, mkState σ (trace st)).

(** [session.attributes[k]] *)
Definition getitem (k : string) : H pyval := λ σ,
  match σ !! k with
  | Some v => (Ok v, σ)
  | None => (Raise (KeyError k), σ)
  end.

(** [session.attributes[k] = v] *)
Definition setitem (k : string) (v : pyval) : M () :=
  λ st, (Ok (), mkState (<[k:=v]> (attributes st)) (trace st)).

(** [k in session.attributes] *)
Definition contains (k : string) : M bool :=
  λ st, (Ok (bool_decide (is_Some (attributes st !! k))), st).

(** [a + b] on the values above: defined on two strings only. *)
Definition py_add (a b : pyval) : M pyval :=
  match a, b with
  | PyStr x, PyStr y => ret (PyStr (x +:+ y))
  | _, _ => raise TypeError
  end.

(** ** The dialog table *)

Record Slot : Type := mkSlot {
  slot_name : string;
  prompt : string
}.

Record Step : Type := mkStep {
  intent : H pyval;
  slots : option (list Slot);      (* [None] is Python's [None] *)
  transition_msg : pyval
}.

Definition get_next_train : H pyval :=
  let! direction := getitem "Direction" in
  let! line := getitem "Line" in
  let! station := getitem "Station" in
  let time := 5%N in
  ret (PyStr ("The next " +:+ py_str direction +:+ " " +:+ py_str line +:+
              " train from " +:+ py_str station +:+ " leaves in " +:+
              pretty time +:+ " minutes.")).

Definition send_text : H pyval := ret PyNone.

Definition schedule_slots : list Slot :=
  [ mkSlot "Station" "What station?";
    mkSlot "Line" "What line?";
    mkSlot "Direction" "Inbound or outbound?" ].

Definition dialog : list Step :=
  [ mkStep get_next_train (Some schedule_slots) (PyStr "Should I text you?");
    mkStep send_text None PyNone ].

(** ** The engine *)

(** What a call hands back: the pair (kind, message), or [None] when the
    function body ends without a [return]. *)
Definition reply : Type := option (string * pyval).

Definition Question (m : pyval) : reply := Some ("question", m).
Definition Statement (m : pyval) : reply := Some ("statement", m).

(** Lines 54-57: record the incoming pair when both parts are truthy. *)
Definition set_context (slot value : pyval) : M () :=
  match slot with
  | PyStr k => if truthy slot && truthy value then setitem k value else ret ()
  | PyNone => ret ()
  end.

(** Lines 64-70, the inner loop.  [Some r] means that the loop left the
    function with [return r]; [None] that it ran to its end. *)
Fixpoint for_slots (intent_slots : list Slot) : M reply :=
  match intent_slots with
  | [] => ret None
  | s :: rest =>
      let! filled := contains (slot_name s) in
      if filled then for_slots rest
      else ret (Question (PyStr (prompt s)))
  end.

(** Lines 72-78: all slots of [seq] are filled, its handler runs and the
    reply is built from what it returns. *)
Definition handle_intent (seq : Step) : M reply :=
  let! final_msg := lift (intent seq) in
  if truthy (transition_msg seq) then
    let! m1 := py_add final_msg (PyStr "...") in
    let! final_msg := py_add m1 (transition_msg seq) in
    ret (Question final_msg)
  else
    ret (Statement final_msg).

(** Lines 63-78, the body of the outer loop on step [seq], the [i]-th of
    the dialog.  Iterating [None] raises [TypeError]. *)
Definition step_body (i : nat) (seq : Step) : M reply :=
  emit (EvStep i) >>>
  match slots seq with
  | None => raise TypeError
  | Some intent_slots =>
      let! r := for_slots intent_slots in
      match r with
      | Some q => ret (Some q)
      | None =>
          let! σ := (λ st, (Ok (attributes st), st)) in
          emit (EvIntent i σ) >>>
          handle_intent seq
      end
  end.

(** Lines 60-78, the outer loop: the next step is tried only when the
    body did not return. *)
Fixpoint for_dialog (i : nat) (dlg : list Step) : M reply :=
  match dlg with
  | [] => ret None
  | seq :: rest =>
      let! r := step_body i seq in
      match r with
      | Some q => ret (Some q)
      | None => for_dialog (S i) rest
      end
  end.

(** The engine over an arbitrary dialog table, and over the table of the
    module. *)
Definition set_context_and_handle_in (dlg : list Step) (slot value : pyval) : M reply :=
  set_context slot value >>> for_dialog 0 dlg.

Definition set_context_and_handle : pyval → pyval → M reply :=
  set_context_and_handle_in dialog.

(** A conversation: the calls of a list, one after the other, on the
    same session.  The replies are dropped; the session is what the
    next call finds. *)
Fixpoint run_calls (calls : list (pyval * pyval)) (st : state) : state :=
  match calls with
  | [] => st
  | (slot, value) :: rest => run_calls rest (set_context_and_handle slot value st).2
  end.

(** The replies of a conversation, in order. *)
Fixpoint replies (calls : list (pyval * pyval)) (st : state) : list (res reply) :=
  match calls with
  | [] => []
  | (slot, value) :: rest =>
      let '(r, st') := set_context_and_handle slot value st in
      r :: replies rest st'
  end.

Definition scenario : list (pyval * pyval) :=
  [ (PyNone, PyNone);
    (PyStr "Station", PyStr "Park St");
    (PyStr "Line", PyStr "Red");
    (PyStr "Direction", PyStr "Inbound");
    (PyNone, PyNone) ].

(** ** The views *)

(** The two responses of [flask_ask] that the views build, kept as
    they are handed to the library. *)
Inductive response : Type :=
  | question (msg : pyval)
  | statement (msg : pyval).

(** [question(msg)] and [statement(msg)]: the library builds the speech
    from a string and raises [TypeError] when it is given [None]. *)
Definition speak (kind : pyval → response) (msg : pyval) : M response :=
  match msg with
  | PyStr _ => ret (kind msg)
  | PyNone => raise TypeError
  end.

(** Lines 83-87, repeated at 92-96, 101-105 and 110-114: unpack the pair
    that the engine returned and wrap the message.  Unpacking [None]
    raises [TypeError]. *)
Definition respond (r : reply) : M response :=
  match r with
  | None => raise TypeError
  | Some (msg_type, msg) =>
      if String.eqb msg_type "question" then speak question msg
      else speak statement msg
  end.

(** The same lines over an arbitrary dialog table. *)
Definition handle_and_respond_in (dlg : list Step) (slot value : pyval) : M response :=
  let! r := set_context_and_handle_in dlg slot value in
  respond r.

(** Lines 12-15. *)
Definition start_skill : M response :=
  let msg := PyStr "Hello. What station are you leaving from?" in
  speak question msg.

(** Lines 81-87: the two parameters are not used. *)
Definition next_train (Station Line : pyval) : M response :=
  let! r := set_context_and_handle PyNone PyNone in
  respond r.

(** Lines 90-96. *)
Definition set_station (Station : pyval) : M response :=
  let! r := set_context_and_handle (PyStr "Station") Station in
  respond r.

(** Lines 99-105. *)
Definition set_line (Line : pyval) : M response :=
  let! r := set_context_and_handle (PyStr "Line") Line in
  respond r.

(** Lines 108-114.  The source names this function [set_line] again, as
    it does the next two; each is registered under its own intent
    before the name is bound anew, so they get a name each here. *)
Definition set_direction (Direction : pyval) : M response :=
  let! r := set_context_and_handle (PyStr "Direction") Direction in
  respond r.

(** Lines 116-119. *)
Definition yes_intent : M response :=
  let msg := PyStr "OK, I'll text you." in
  speak statement msg.

(** Lines 121-124. *)
Definition no_intent : M response :=
  let msg := PyStr "OK." in
  speak statement msg.

(** What the decorators register: the launch request and the six
    intents, each with the parameters of its view. *)
Inductive request : Type :=
  | Launch
  | NextTrainIntent (Station Line : pyval)
  | SetStationIntent (Station : pyval)
  | SetLineIntent (Line : pyval)
  | SetDirectionIntent (Direction : pyval)
  | YesIntent
  | NoIntent.

Definition view (rq : request) : M response :=
  match rq with
  | Launch => start_skill
  | NextTrainIntent Station Line => next_train Station Line
  | SetStationIntent Station => set_station Station
  | SetLineIntent Line => set_line Line
  | SetDirectionIntent Direction => set_direction Direction
  | YesIntent => yes_intent
  | NoIntent => no_intent
  end.

(** ** Reading the claims: specification-side notions *)

(** Slot [s] is absent from session [σ]. *)
Definition missing_in (σ : gmap string pyval) (s : Slot) : bool :=
  negb (bool_decide (is_Some (σ !! slot_name s))).

(** The earliest-declared slot of [l] that is absent from [σ]. *)
Definition first_missing (l : list Slot) (σ : gmap string pyval) : option Slot :=
  List.find (missing_in σ) l.

(** The earliest-declared missing slot of the earliest step that is not
    complete, over the whole dialog.  A step without a slot list asks for
    nothing. *)
Fixpoint earliest_missing (dlg : list Step) (σ : gmap string pyval) : option Slot :=
  match dlg with
  | [] => None
  | seq :: rest =>
      match first_missing (default [] (slots seq)) σ with
      | Some s => Some s
      | None => earliest_missing rest σ
      end
  end.

(** The steps whose body ran, and the steps whose handler ran, in a
    trace. *)
Definition steps_of (tr : list event) : list nat :=
  omap (λ ev, match ev with EvStep i => Some i | EvIntent _ _ => None end) tr.

Definition intents_of (tr : list event) : list nat :=
  omap (λ ev, match ev with EvIntent i _ => Some i | EvStep _ => None end) tr.

(** A handler call in the trace is justified when the step it belongs to
    has a slot list and each of its slots is in the session of the call. *)
Definition justified (dlg : list Step) (ev : event) : Prop :=
  match ev with
  | EvStep _ => True
  | EvIntent i σ =>
      ∃ seq l, dlg !! i = Some seq ∧ slots seq = Some l ∧
               ∀ s, s ∈ l → is_Some (σ !! slot_name s)
  end.

(** The session that the scan sees: the incoming pair recorded when both
    of its parts are truthy. *)
Definition recorded (slot value : pyval) (σ : gmap string pyval) : gmap string pyval :=
  match slot with
  | PyStr k => if truthy slot && truthy value then <[k:=value]> σ else σ
  | PyNone => σ
  end.

(** The message of [get_next_train] for the three values it reads. *)
Definition train_msg (direction line station : pyval) : string :=
  "The next " +:+ py_str direction +:+ " " +:+ py_str line +:+
  " train from " +:+ py_str station +:+ " leaves in " +:+ pretty 5%N +:+
  " minutes.".

(** The value that the calls of a conversation leave under key [k]: the
    value of the latest call that names [k] with a truthy value, if there
    is one. *)
Fixpoint last_write (k : string) (calls : list (pyval * pyval)) : option pyval :=
  match calls with
  | [] => None
  | (slot, value) :: rest =>
      match last_write k rest with
      | Some v => Some v
      | None =>
          if bool_decide (slot = PyStr k) && truthy slot && truthy value
          then Some value else None
      end
  end.

(** A session whose names and values are all non-empty strings. *)
Definition clean (σ : gmap string pyval) : Prop :=
  map_Forall (λ k v, k ≠ "" ∧ truthy v = true) σ.

(** The first of the keys that [get_next_train] reads, in the order in
    which it reads them, that is not in the session. *)
Definition first_unread (σ : gmap string pyval) : option string :=
  List.find (λ k, bool_decide (σ !! k = None)) ["Direction"; "Line"; "Station"].

(** ** The engine, phase by phase *)

Section Engine.

Implicit Types (st : state) (σ : gmap string pyval) (l : list Slot)
               (seq : Step) (dlg : list Step) (slot value : pyval).

Lemma set_context_run slot value st :
  set_context slot value st
  = (Ok (), mkState (recorded slot value (attributes st)) (trace st)).
Proof.
  destruct st as [σ tr]. unfold set_context, recorded.
  destruct slot as [|k]; [done|].
  by destruct (truthy (PyStr k) && truthy value).
Qed.

Lemma for_slots_run l st :
  for_slots l st
  = (Ok (match first_missing l (attributes st) with
         | Some s => Question (PyStr (prompt s))
         | None => None
         end), st).
Proof.
  induction l as [|s l IH]; [done|].
  cbn [for_slots first_missing List.find]. unfold bind, contains, missing_in.
  destruct (bool_decide (is_Some (attributes st !! slot_name s))); cbn [negb].
  - exact IH.
  - done.
Qed.

Lemma first_missing_Some l σ s :
  first_missing l σ = Some s → s ∈ l ∧ σ !! slot_name s = None.
Proof.
  unfold first_missing. intros Hf. apply find_some in Hf as [Hin Hm].
  split; [by apply list_elem_of_In|].
  unfold missing_in in Hm. apply negb_true_iff, bool_decide_eq_false in Hm.
  by apply eq_None_not_Some.
Qed.

Lemma first_missing_None l σ :
  first_missing l σ = None → ∀ s, s ∈ l → is_Some (σ !! slot_name s).
Proof.
  unfold first_missing. intros Hf s Hin.
  apply list_elem_of_In in Hin.
  pose proof (find_none _ _ Hf s Hin) as Hm.
  unfold missing_in in Hm. apply negb_false_iff in Hm.
  by apply bool_decide_eq_true in Hm.
Qed.

(** Earlier slots of the list are filled when a later one is the first
    missing. *)
Lemma first_missing_prefix l σ s :
  first_missing l σ = Some s →
  ∃ l1 l2, l = l1 ++ s :: l2 ∧ ∀ s', s' ∈ l1 → is_Some (σ !! slot_name s').
Proof.
  induction l as [|a l IH]; [done|].
  unfold first_missing. cbn [List.find].
  destruct (missing_in σ a) eqn:Ha.
  - intros [= ->]. exists [], l. split; [done|]. intros s' Hs'. by apply elem_of_nil in Hs'.
  - intros Hf. destruct (IH Hf) as (l1 & l2 & -> & Hl1).
    exists (a :: l1), l2. split; [done|].
    intros s' [->|Hs']%elem_of_cons; [|by apply Hl1].
    unfold missing_in in Ha. apply negb_false_iff in Ha.
    by apply bool_decide_eq_true in Ha.
Qed.

(** The body of the outer loop, unfolded on a step with a slot list. *)
Lemma step_body_missing i seq l s st :
  slots seq = Some l →
  first_missing l (attributes st) = Some s →
  step_body i seq st
  = (Ok (Question (PyStr (prompt s))),
     mkState (attributes st) (trace st ++ [EvStep i])).
Proof.
  intros Hl Hs. unfold step_body, bind, emit. rewrite Hl, for_slots_run.
  cbn [attributes]. by rewrite Hs.
Qed.

Lemma step_body_null i seq st :
  slots seq = None →
  step_body i seq st
  = (Raise TypeError, mkState (attributes st) (trace st ++ [EvStep i])).
Proof. intros Hl. unfold step_body, bind, emit. by rewrite Hl. Qed.

Lemma step_body_filled i seq l st :
  slots seq = Some l →
  first_missing l (attributes st) = None →
  step_body i seq st
  = handle_intent seq
      (mkState (attributes st)
               (trace st ++ [EvStep i; EvIntent i (attributes st)])).
Proof.
  intros Hl Hs. unfold step_body, bind, emit. rewrite Hl, for_slots_run.
  cbn [attributes trace]. rewrite Hs. cbn [attributes trace].
  by rewrite <- (assoc_L (++)).
Qed.

Lemma truthy_str (t : string) : truthy (PyStr t) = true ↔ t ≠ "".
Proof.
  cbn [truthy]. rewrite negb_true_iff. split.
  - intros Hne ->. by rewrite String.eqb_refl in Hne.
  - intros Hne. by apply String.eqb_neq.
Qed.

(** The two ways a completed step answers. *)
Lemma handle_intent_question seq st r t σ' :
  intent seq (attributes st) = (Ok (PyStr r), σ') →
  transition_msg seq = PyStr t → t ≠ "" →
  handle_intent seq st
  = (Ok (Question (PyStr ((r +:+ "...") +:+ t))), mkState σ' (trace st)).
Proof.
  intros Hh Ht Hne. unfold handle_intent, bind, lift. rewrite Hh, Ht.
  apply truthy_str in Hne. by rewrite Hne.
Qed.

Lemma handle_intent_statement seq st v σ' :
  intent seq (attributes st) = (Ok v, σ') →
  truthy (transition_msg seq) = false →
  handle_intent seq st = (Ok (Statement v), mkState σ' (trace st)).
Proof.
  intros Hh Ht. unfold handle_intent, bind, lift. by rewrite Hh, Ht.
Qed.

(** Whatever the handler does, a completed step does not fall through:
    it returns a reply or raises. *)
Lemma handle_intent_returns seq st r st' :
  handle_intent seq st = (Ok r, st') → is_Some r.
Proof.
  unfold handle_intent, bind, lift.
  destruct (intent seq (attributes st)) as [[v|e] σ']; [|done].
  destruct (truthy (transition_msg seq)).
  - destruct v as [|x]; [done|]. cbn.
    destruct (transition_msg seq) as [|y]; [done|]. cbn.
    intros [= <- _]. by eexists.
  - intros [= <- _]. by eexists.
Qed.

Lemma step_body_returns i seq st r st' :
  step_body i seq st = (Ok r, st') → is_Some r.
Proof.
  destruct (slots seq) as [l|] eqn:Hl.
  - destruct (first_missing l (attributes st)) as [s|] eqn:Hs.
    + rewrite (step_body_missing _ _ _ _ _ Hl Hs). intros [= <- _]. by eexists.
    + rewrite (step_body_filled _ _ _ _ Hl Hs). apply handle_intent_returns.
  - by rewrite (step_body_null _ _ _ Hl).
Qed.

(** Every path through the body of the outer loop leaves the function,
    so the loop stops in its first iteration. *)
Lemma for_dialog_cons i seq rest st :
  for_dialog i (seq :: rest) st = step_body i seq st.
Proof.
  cbn [for_dialog]. unfold bind.
  destruct (step_body i seq st) as [[r|e] st'] eqn:Hb; [|done].
  apply step_body_returns in Hb as [q ->]. done.
Qed.

Lemma handle_in_cons seq rest slot value st :
  set_context_and_handle_in (seq :: rest) slot value st
  = step_body 0 seq (mkState (recorded slot value (attributes st)) (trace st)).
Proof.
  unfold set_context_and_handle_in, bind. rewrite set_context_run.
  apply for_dialog_cons.
Qed.

Lemma first_missing_filled l σ :
  (∀ s, s ∈ l → is_Some (σ !! slot_name s)) → first_missing l σ = None.
Proof.
  intros Hall. destruct (first_missing l σ) as [s|] eqn:Hs; [|done].
  apply first_missing_Some in Hs as [Hin Hnone].
  destruct (Hall s Hin) as [v Hv]. congruence.
Qed.

(** The ghost trace is out of the handler's reach. *)
Lemma handle_intent_trace seq st : trace (handle_intent seq st).2 = trace st.
Proof.
  unfold handle_intent, bind, lift.
  destruct (intent seq (attributes st)) as [[v|e] σ']; [|done].
  destruct (truthy (transition_msg seq)); [|done].
  destruct v as [|x]; [done|]. cbn.
  by destruct (transition_msg seq).
Qed.

(** What one pass through the body of the loop adds to the trace. *)
Lemma step_body_trace i seq st :
  trace (step_body i seq st).2 = trace st ++ [EvStep i]
  ∨ (∃ l, slots seq = Some l ∧ first_missing l (attributes st) = None ∧
          trace (step_body i seq st).2
          = trace st ++ [EvStep i; EvIntent i (attributes st)]).
Proof.
  destruct (slots seq) as [l|] eqn:Hl.
  - destruct (first_missing l (attributes st)) as [s|] eqn:Hs.
    + left. by rewrite (step_body_missing _ _ _ _ _ Hl Hs).
    + right. exists l. split_and!; [done..|].
      by rewrite (step_body_filled _ _ _ _ Hl Hs), handle_intent_trace.
  - left. by rewrite (step_body_null _ _ _ Hl).
Qed.

Lemma recorded_is_Some slot value σ (k : string) :
  is_Some (σ !! k) → is_Some (recorded slot value σ !! k).
Proof.
  intros Hk. unfold recorded. destruct slot as [|j]; [done|].
  destruct (truthy (PyStr j) && truthy value); [|done].
  apply lookup_insert_is_Some. destruct (decide (j = k)); auto.
Qed.

Lemma recorded_other slot value σ (k : string) :
  slot ≠ PyStr k → recorded slot value σ !! k = σ !! k.
Proof.
  intros Hne. unfold recorded. destruct slot as [|j]; [done|].
  destruct (truthy (PyStr j) && truthy value); [|done].
  apply lookup_insert_ne. congruence.
Qed.

Lemma recorded_twice slot value σ :
  recorded slot value (recorded slot value σ) = recorded slot value σ.
Proof.
  unfold recorded. destruct slot as [|j]; [done|].
  destruct (truthy (PyStr j) && truthy value); [|done].
  apply insert_insert_eq.
Qed.

(** *** The table of the module *)

Lemma get_next_train_run σ direction line station :
  σ !! "Direction" = Some direction → σ !! "Line" = Some line →
  σ !! "Station" = Some station →
  get_next_train σ = (Ok (PyStr (train_msg direction line station)), σ).
Proof.
  intros Hd Hl Hs. unfold get_next_train, bind, getitem.
  by rewrite Hd, Hl, Hs.
Qed.

Lemma schedule_filled σ :
  first_missing schedule_slots σ = None →
  ∃ direction line station,
    σ !! "Direction" = Some direction ∧ σ !! "Line" = Some line ∧
    σ !! "Station" = Some station.
Proof.
  intros Hf. pose proof (first_missing_None _ _ Hf) as Hall.
  destruct (Hall (mkSlot "Direction" "Inbound or outbound?")) as [d Hd];
    [unfold schedule_slots; set_solver|].
  destruct (Hall (mkSlot "Line" "What line?")) as [l Hl];
    [unfold schedule_slots; set_solver|].
  destruct (Hall (mkSlot "Station" "What station?")) as [s Hs];
    [unfold schedule_slots; set_solver|].
  by exists d, l, s.
Qed.

(** The session is only read by the handler of the first step. *)
Lemma get_next_train_reads σ : (get_next_train σ).2 = σ.
Proof.
  unfold get_next_train, bind, getitem.
  destruct (σ !! "Direction"); [|done].
  destruct (σ !! "Line"); [|done].
  by destruct (σ !! "Station").
Qed.

(** A call on the module's table, in full. *)
Lemma handle_missing slot value st s :
  first_missing schedule_slots (recorded slot value (attributes st)) = Some s →
  set_context_and_handle slot value st
  = (Ok (Question (PyStr (prompt s))),
     mkState (recorded slot value (attributes st)) (trace st ++ [EvStep 0])).
Proof.
  intros Hs. unfold set_context_and_handle, dialog. rewrite handle_in_cons.
  by erewrite step_body_missing.
Qed.

Lemma handle_filled slot value st :
  first_missing schedule_slots (recorded slot value (attributes st)) = None →
  ∃ direction line station,
    let σ := recorded slot value (attributes st) in
    σ !! "Direction" = Some direction ∧ σ !! "Line" = Some line ∧
    σ !! "Station" = Some station ∧
    set_context_and_handle slot value st
    = (Ok (Question (PyStr ((train_msg direction line station +:+ "...")
                             +:+ "Should I text you?"))),
       mkState σ (trace st ++ [EvStep 0; EvIntent 0 σ])).
Proof.
  intros Hf. destruct (schedule_filled _ Hf) as (d & l & s & Hd & Hl & Hs).
  exists d, l, s. cbn zeta. split_and!; [done..|].
  unfold set_context_and_handle, dialog. rewrite handle_in_cons.
  erewrite step_body_filled; [|done|done].
  erewrite handle_intent_question; [done| |done|done].
  cbn [intent attributes]. by apply get_next_train_run.
Qed.

(** The session after a call is the session with the incoming pair
    recorded, and nothing else. *)
Lemma handle_attributes slot value st :
  attributes (set_context_and_handle slot value st).2
  = recorded slot value (attributes st).
Proof.
  destruct (first_missing schedule_slots (recorded slot value (attributes st)))
    as [s|] eqn:Hs.
  - by rewrite (handle_missing _ _ _ _ Hs).
  - destruct (handle_filled _ _ _ Hs) as (d & l & x & _ & _ & _ & ->). done.
Qed.

End Engine.

(** ** Properties of the engine *)

(** The scenario of the dialog table, call by call: the fifth reply is
    the fourth once more, [get_next_train] has run twice and [send_text]
    not at all. *)
Theorem scenario_fifth_call_repeats_first_step :
  replies scenario (init ∅)
  = [ Ok (Question (PyStr "What station?"));
      Ok (Question (PyStr "What line?"));
      Ok (Question (PyStr "Inbound or outbound?"));
      Ok (Question (PyStr "The next Inbound Red train from Park St leaves in 5 minutes....Should I text you?"));
      Ok (Question (PyStr "The next Inbound Red train from Park St leaves in 5 minutes....Should I text you?")) ]
  ∧ send_text (attributes (run_calls (take 4 scenario) (init ∅)))
    = (Ok PyNone, attributes (run_calls (take 4 scenario) (init ∅)))
  ∧ replies scenario (init ∅) !! 4 ≠ Some (Ok (Statement PyNone))
  ∧ intents_of (trace (run_calls scenario (init ∅))) = [0; 0].
Proof. split_and!; [by vm_compute| by vm_compute | by vm_compute | by vm_compute]. Qed.

(** C1 as written fails: after the four calls that fill Station, Line
    and Direction, the reply of a further call with no incoming slot is
    not the statement of what [send_text] returns. *)
Lemma fifth_call_not_send_text_statement :
  ¬ (∃ v σ,
       send_text (attributes (run_calls (take 4 scenario) (init ∅))) = (Ok v, σ)
       ∧ (set_context_and_handle PyNone PyNone
            (run_calls (take 4 scenario) (init ∅))).1 = Ok (Statement v)).
Proof.
  intros (v & σ & _ & Hr). vm_compute in Hr. discriminate Hr.
Qed.

(** C1 (amended).  With the module's dialog, once the session holds
    Station, Line and Direction, a further call with no incoming slot
    evaluates the first step again: it runs [get_next_train], the handler
    of step 0 and no other, and returns the question made of its message,
    three dots and the transition message, as the call that filled the
    last slot did; the session is left as it is. *)
Theorem further_call_repeats_first_step (st : state) (a b c : pyval) :
  attributes st !! "Station" = Some a →
  attributes st !! "Line" = Some b →
  attributes st !! "Direction" = Some c →
  set_context_and_handle PyNone PyNone st
  = (Ok (Question (PyStr ((train_msg c b a +:+ "...") +:+ "Should I text you?"))),
     mkState (attributes st) (trace st ++ [EvStep 0; EvIntent 0 (attributes st)])).
Proof.
  intros Ha Hb Hc.
  assert (first_missing schedule_slots (recorded PyNone PyNone (attributes st)) = None)
    as Hf.
  { apply first_missing_filled. intros s Hin. unfold schedule_slots in Hin.
    cbn [recorded].
    repeat (apply elem_of_cons in Hin as [->|Hin]); cbn [slot_name]; eauto.
    by apply elem_of_nil in Hin. }
  destruct (handle_filled _ _ _ Hf) as (d & l & x & Hd & Hl & Hx & ->).
  cbn [recorded] in Hd, Hl, Hx. cbn [recorded]. congruence.
Qed.

Lemma further_call_repeats_first_step_witness :
  (set_context_and_handle PyNone PyNone (run_calls (take 4 scenario) (init ∅))).1
  = Ok (Question (PyStr "The next Inbound Red train from Park St leaves in 5 minutes....Should I text you?"))
  ∧ intents_of (trace (set_context_and_handle PyNone PyNone
                         (run_calls (take 4 scenario) (init ∅))).2) = [0; 0].
Proof.
  rewrite (further_call_repeats_first_step
             (run_calls (take 4 scenario) (init ∅))
             (PyStr "Park St") (PyStr "Red") (PyStr "Inbound"));
    [|vm_compute; reflexivity..].
  split; vm_compute; reflexivity.
Defined.

(** C2.  A call evaluates one step, the first of the dialog, whatever the
    dialog holds after it.  On the module's table the call either asks
    for a slot of that step that is missing from the session, without
    running a handler, or runs the handler of that step once and returns
    its message joined to the transition message. *)
Theorem one_step_per_call :
  (∀ seq rest slot value st,
     ∃ new, trace (set_context_and_handle_in (seq :: rest) slot value st).2
            = trace st ++ new ∧ steps_of new = [0])
  ∧ (∀ slot value st,
       ∃ seq l new σ,
         head dialog = Some seq ∧ slots seq = Some l ∧
         (set_context_and_handle slot value st).2 = mkState σ (trace st ++ new) ∧
         steps_of new = [0] ∧
         ((∃ s, s ∈ l ∧ σ !! slot_name s = None ∧ intents_of new = [] ∧
                (set_context_and_handle slot value st).1
                = Ok (Question (PyStr (prompt s))))
          ∨ (∃ m t, (∀ s, s ∈ l → is_Some (σ !! slot_name s)) ∧
                    intents_of new = [0] ∧
                    intent seq σ = (Ok (PyStr m), σ) ∧
                    transition_msg seq = PyStr t ∧
                    (set_context_and_handle slot value st).1
                    = Ok (Question (PyStr ((m +:+ "...") +:+ t)))))).
Proof.
  split.
  - intros seq rest slot value st. rewrite handle_in_cons.
    set (st1 := mkState _ _). change (trace st) with (trace st1).
    destruct (step_body_trace 0 seq st1) as [->|(l & _ & _ & ->)]; by eexists.
  - intros slot value st.
    set (σ := recorded slot value (attributes st)).
    destruct (first_missing schedule_slots σ) as [s|] eqn:Hs.
    + exists (mkStep get_next_train (Some schedule_slots) (PyStr "Should I text you?")),
             schedule_slots, [EvStep 0], σ.
      rewrite (handle_missing _ _ _ _ Hs).
      apply first_missing_Some in Hs as [Hin Hnone].
      split_and!; [done..|]. left. by exists s.
    + exists (mkStep get_next_train (Some schedule_slots) (PyStr "Should I text you?")),
             schedule_slots, [EvStep 0; EvIntent 0 σ], σ.
      destruct (handle_filled _ _ _ Hs) as (d & l & x & Hd & Hl & Hx & ->).
      split_and!; [done..|]. right.
      exists (train_msg d l x), "Should I text you?".
      split_and!; [by apply first_missing_None|done| |done|done].
      by apply get_next_train_run.
Qed.

(** C3 as written fails: a pair whose value is empty is not written. *)
Lemma empty_value_not_written :
  ¬ (∀ (σ : gmap string pyval) (k : string) (v : pyval),
       k ≠ "" →
       attributes (set_context_and_handle (PyStr k) v (init σ)).2 !! k = Some v).
Proof.
  intros Hall. specialize (Hall ∅ "Station" (PyStr "")).
  vm_compute in Hall. by specialize (Hall ltac:(intros [=])).
Qed.

(** C3 (amended).  For a slot name that is present and non-empty, the
    pair is written before the steps are scanned exactly when the value
    is present and non-empty too, whether or not a step of the dialog
    declares the name; with an absent or empty value nothing is written.
    The scan runs on that session and the call leaves it as it is. *)
Theorem write_before_scan (dlg : list Step) (k : string) (v : pyval) (st : state) :
  k ≠ "" →
  let σ := if truthy v then <[k:=v]> (attributes st) else attributes st in
  set_context_and_handle_in dlg (PyStr k) v st
  = for_dialog 0 dlg (mkState σ (trace st))
  ∧ attributes (set_context_and_handle (PyStr k) v st).2 = σ.
Proof.
  intros Hk σ. apply truthy_str in Hk.
  assert (recorded (PyStr k) v (attributes st) = σ) as Hrec.
  { unfold recorded, σ. rewrite Hk. done. }
  split.
  - unfold set_context_and_handle_in, bind. by rewrite set_context_run, Hrec.
  - by rewrite handle_attributes.
Qed.

Lemma write_before_scan_witness :
  attributes (set_context_and_handle (PyStr "Colour") (PyStr "Red") (init ∅)).2
  = <["Colour":=PyStr "Red"]> ∅
  ∧ attributes (set_context_and_handle (PyStr "Colour") (PyStr "") (init ∅)).2 = ∅.
Proof.
  split.
  - apply (write_before_scan dialog "Colour" (PyStr "Red") (init ∅)). intros [=].
  - apply (write_before_scan dialog "Colour" (PyStr "") (init ∅)). intros [=].
Defined.

(** C4 (the code departs from the claim).  The second step of the
    module's table has no slot list: its [slots] is [None], and the body
    of the loop raises [TypeError] on it in every session.  No call
    raises it, only because the loop never gets past the first step. *)
Theorem second_step_slots_null :
  (∃ seq, dialog !! 1 = Some seq ∧ slots seq = None ∧
          ∀ i st, (step_body i seq st).1 = Raise TypeError)
  ∧ (∀ st, (for_dialog 1 (drop 1 dialog) st).1 = Raise TypeError)
  ∧ (∀ slot value st, ∃ q, (set_context_and_handle slot value st).1 = Ok (Some q)).
Proof.
  split_and!.
  - eexists. split; [done|]. split; [done|]. intros i st. by rewrite step_body_null.
  - intros st. cbn [drop dialog]. rewrite for_dialog_cons. by rewrite step_body_null.
  - intros slot value st.
    destruct (first_missing schedule_slots (recorded slot value (attributes st)))
      as [s|] eqn:Hs.
    + rewrite (handle_missing _ _ _ _ Hs). by eexists.
    + destruct (handle_filled _ _ _ Hs) as (d & l & x & _ & _ & _ & ->). by eexists.
Qed.

(** C5.  When the session that the scan sees, the incoming pair
    included, lacks a slot of the earliest step that is not complete, the
    call asks for one slot: the reply is the question carrying the prompt
    of the earliest-declared missing slot of that step, every slot
    declared before it is filled, and no handler runs. *)
Theorem asks_earliest_missing_slot (slot value : pyval) (st : state) (s : Slot) :
  let σ := attributes (set_context slot value st).2 in
  earliest_missing dialog σ = Some s →
  (set_context_and_handle slot value st).1 = Ok (Question (PyStr (prompt s)))
  ∧ (set_context_and_handle slot value st).2 = mkState σ (trace st ++ [EvStep 0])
  ∧ σ !! slot_name s = None
  ∧ ∃ l1 l2, schedule_slots = l1 ++ s :: l2 ∧
             ∀ s', s' ∈ l1 → is_Some (σ !! slot_name s').
Proof.
  intros σ. unfold σ. rewrite set_context_run. cbn [snd attributes].
  cbn [earliest_missing dialog slots default from_option id].
  destruct (first_missing schedule_slots (recorded slot value (attributes st)))
    as [s0|] eqn:Hs; [|by cbn].
  intros [= ->]. rewrite (handle_missing _ _ _ _ Hs).
  split_and!; [done|done| |].
  - by apply first_missing_Some in Hs as [_ ?].
  - by apply first_missing_prefix.
Qed.

Lemma asks_earliest_missing_slot_witness :
  (set_context_and_handle PyNone PyNone (init {["Station" := PyStr "Park St"]})).1
  = Ok (Question (PyStr "What line?")).
Proof.
  apply (asks_earliest_missing_slot PyNone PyNone
           (init {["Station" := PyStr "Park St"]}) (mkSlot "Line" "What line?")).
  vm_compute. reflexivity.
Defined.

(** C6.  When every slot of the evaluated step is in the session and its
    handler returns, the reply is the question made of the handler's
    message, three dots and the transition message if the step has a
    non-empty transition message, and the statement of the handler's
    result if it has none. *)
Theorem completed_step_reply (seq : Step) (rest : list Step) (slot value : pyval)
    (st : state) (l : list Slot) (v : pyval) (σ' : gmap string pyval) :
  let σ := attributes (set_context slot value st).2 in
  slots seq = Some l →
  (∀ s, s ∈ l → is_Some (σ !! slot_name s)) →
  intent seq σ = (Ok v, σ') →
  (∀ m t, v = PyStr m → transition_msg seq = PyStr t → t ≠ "" →
          (set_context_and_handle_in (seq :: rest) slot value st).1
          = Ok (Question (PyStr ((m +:+ "...") +:+ t))))
  ∧ (truthy (transition_msg seq) = false →
     (set_context_and_handle_in (seq :: rest) slot value st).1 = Ok (Statement v)).
Proof.
  intros σ. unfold σ. rewrite set_context_run. cbn [snd attributes].
  intros Hl Hall Hh. apply first_missing_filled in Hall.
  rewrite handle_in_cons. erewrite step_body_filled; [|done|done].
  split.
  - intros m t -> Ht Hne. by erewrite handle_intent_question.
  - intros Ht. by erewrite handle_intent_statement.
Qed.

Lemma completed_step_reply_witness :
  (set_context_and_handle (PyStr "Direction") (PyStr "Inbound")
     (init (<["Line" := PyStr "Red"]> {["Station" := PyStr "Park St"]}))).1
  = Ok (Question (PyStr "The next Inbound Red train from Park St leaves in 5 minutes....Should I text you?"))
  ∧ (set_context_and_handle_in [mkStep send_text (Some []) PyNone] PyNone PyNone (init ∅)).1
    = Ok (Statement PyNone).
Proof.
  split.
  - refine (proj1 (completed_step_reply
             (mkStep get_next_train (Some schedule_slots) (PyStr "Should I text you?"))
             [mkStep send_text None PyNone] (PyStr "Direction") (PyStr "Inbound")
             (init (<["Line" := PyStr "Red"]> {["Station" := PyStr "Park St"]}))
             schedule_slots
             (PyStr "The next Inbound Red train from Park St leaves in 5 minutes.")
             (<["Direction" := PyStr "Inbound"]>
                (<["Line" := PyStr "Red"]> {["Station" := PyStr "Park St"]}))
             _ _ _)
             "The next Inbound Red train from Park St leaves in 5 minutes."
             "Should I text you?" _ _ _).
    + reflexivity.
    + intros s Hs. apply first_missing_None with (l := schedule_slots); [|done].
      vm_compute. reflexivity.
    + vm_compute. reflexivity.
    + reflexivity.
    + reflexivity.
    + intros [=].
  - refine (proj2 (completed_step_reply (mkStep send_text (Some []) PyNone) []
             PyNone PyNone (init ∅) [] PyNone ∅ _ _ _) _).
    + reflexivity.
    + intros s Hs. by apply elem_of_nil in Hs.
    + reflexivity.
    + reflexivity.
Defined.

(** C7.  Over any dialog table, each handler call of a call of the
    engine belongs to a step that has a slot list, all of whose slots
    are in the session at the moment of the call.  On the module's table
    no call ends in a [KeyError], the exception a handler raises when it
    reads a slot that is missing. *)
Theorem handler_only_on_filled_slots :
  (∀ dlg slot value σ0,
     Forall (justified dlg)
            (trace (set_context_and_handle_in dlg slot value (init σ0)).2))
  ∧ (∀ slot value st k,
       (set_context_and_handle slot value st).1 ≠ Raise (KeyError k)).
Proof.
  split.
  - intros [|seq rest] slot value σ0.
    + unfold set_context_and_handle_in, bind. rewrite set_context_run. by cbn.
    + rewrite handle_in_cons. set (st1 := mkState _ _).
      destruct (step_body_trace 0 seq st1) as [->|(l & Hl & Hf & ->)]; cbn.
      * by repeat constructor.
      * repeat constructor. exists seq, l. split_and!; [done..|].
        by apply first_missing_None.
  - intros slot value st k.
    destruct (first_missing schedule_slots (recorded slot value (attributes st)))
      as [s|] eqn:Hs.
    + by rewrite (handle_missing _ _ _ _ Hs).
    + by destruct (handle_filled _ _ _ Hs) as (d & l & x & _ & _ & _ & ->).
Qed.

(** C8.  A slot that is in the session is still in the session, with
    some value, after any sequence of calls. *)
Theorem slots_persist (calls : list (pyval * pyval)) (st : state) (k : string) :
  is_Some (attributes st !! k) →
  is_Some (attributes (run_calls calls st) !! k).
Proof.
  revert st. induction calls as [|[slot value] calls IH]; intros st Hk; [done|].
  cbn [run_calls]. apply IH. rewrite handle_attributes.
  by apply recorded_is_Some.
Qed.

Lemma slots_persist_witness :
  is_Some (attributes (run_calls scenario (init {["Line" := PyStr "Green"]})) !! "Line").
Proof.
  apply (slots_persist scenario (init {["Line" := PyStr "Green"]}) "Line").
  vm_compute. eexists. reflexivity.
Defined.

(** C9.  Two calls with the same pair leave the session as one call
    does. *)
Theorem same_pair_twice (slot value : pyval) (st : state) :
  attributes (run_calls [(slot, value); (slot, value)] st)
  = attributes (run_calls [(slot, value)] st).
Proof.
  cbn [run_calls]. rewrite !handle_attributes. apply recorded_twice.
Qed.

(** C10.  A call leaves every entry of the session whose key is not the
    incoming slot name as it was. *)
Theorem other_slots_untouched (slot value : pyval) (st : state) (k : string) :
  slot ≠ PyStr k →
  attributes (set_context_and_handle slot value st).2 !! k = attributes st !! k.
Proof.
  intros Hne. rewrite handle_attributes. by apply recorded_other.
Qed.

Lemma other_slots_untouched_witness :
  attributes (set_context_and_handle (PyStr "Line") (PyStr "Red")
                (init {["Station" := PyStr "Park St"]})).2 !! "Station"
  = attributes (init {["Station" := PyStr "Park St"]}) !! "Station".
Proof.
  apply (other_slots_untouched (PyStr "Line") (PyStr "Red")
           (init {["Station" := PyStr "Park St"]}) "Station").
  intros [=].
Defined.

(** ** The handlers, the views and whole conversations *)

Lemma handle_always_question (slot value : pyval) (st : state) :
  ∃ m new,
    set_context_and_handle slot value st
    = (Ok (Question (PyStr m)),
       mkState (recorded slot value (attributes st)) (trace st ++ new)).
Proof.
  destruct (first_missing schedule_slots (recorded slot value (attributes st)))
    as [s|] eqn:Hs.
  - rewrite (handle_missing _ _ _ _ Hs). by eexists _, _.
  - destruct (handle_filled _ _ _ Hs) as (d & l & x & _ & _ & _ & ->).
    by eexists _, _.
Qed.

Lemma slot_view_asks (slot value : pyval) (st : state) :
  ∃ m, ((let! r := set_context_and_handle slot value in respond r) st).1
       = Ok (question (PyStr m)).
Proof.
  destruct (handle_always_question slot value st) as (m & new & Hrun).
  exists m. unfold bind. by rewrite Hrun.
Qed.

(** A question of the engine that carries the prompt of a slot of the
    table asks for a slot that the session lacks. *)
Lemma asked_slot_missing (slot value : pyval) (st : state) (s : Slot) :
  s ∈ schedule_slots →
  (set_context_and_handle slot value st).1 = Ok (Question (PyStr (prompt s))) →
  recorded slot value (attributes st) !! slot_name s = None.
Proof.
  intros Hin.
  destruct (first_missing schedule_slots (recorded slot value (attributes st)))
    as [s'|] eqn:Hs.
  - rewrite (handle_missing _ _ _ _ Hs). intros [= Hp].
    apply first_missing_Some in Hs as [Hin' Hnone].
    assert (s' = s) as <-; [|done].
    unfold schedule_slots in Hin, Hin'.
    repeat (apply elem_of_cons in Hin as [->|Hin]);
      [| | |by apply elem_of_nil in Hin];
      repeat (apply elem_of_cons in Hin' as [->|Hin']);
      try done; by apply elem_of_nil in Hin'.
  - destruct (handle_filled _ _ _ Hs) as (d & l & x & _ & _ & _ & ->).
    unfold train_msg. cbn [fst String.append]. intros [= Hp]. exfalso.
    unfold schedule_slots in Hin.
    repeat (apply elem_of_cons in Hin as [->|Hin]);
      [| | |by apply elem_of_nil in Hin]; discriminate Hp.
Qed.

Lemma respond_question_inv (slot value : pyval) (st : state) (m : pyval) :
  ((let! r := set_context_and_handle slot value in respond r) st).1
  = Ok (question m) →
  (set_context_and_handle slot value st).1 = Ok (Question m).
Proof.
  destruct (handle_always_question slot value st) as (m' & new & Hrun).
  unfold bind. rewrite Hrun. cbn. by intros [= ->].
Qed.

Lemma run_calls_lookup (calls : list (pyval * pyval)) (st : state) (k : string) :
  attributes (run_calls calls st) !! k
  = match last_write k calls with
    | Some v => Some v
    | None => attributes st !! k
    end.
Proof.
  revert st. induction calls as [|[slot value] calls IH]; intros st; [done|].
  cbn [run_calls last_write]. rewrite IH, handle_attributes.
  destruct (last_write k calls) as [v|]; [done|].
  unfold recorded. destruct slot as [|j]; [done|].
  destruct (decide (j = k)) as [->|Hne].
  - rewrite bool_decide_eq_true_2 by done. cbn [andb].
    destruct (truthy (PyStr k) && truthy value); [|done].
    apply lookup_insert_eq.
  - rewrite bool_decide_eq_false_2 by congruence. cbn [andb].
    destruct (truthy (PyStr j) && truthy value); [|done].
    by apply lookup_insert_ne.
Qed.

Lemma recorded_clean (slot value : pyval) (σ : gmap string pyval) :
  clean σ → clean (recorded slot value σ).
Proof.
  intros Hc. unfold recorded. destruct slot as [|j]; [done|].
  destruct (truthy (PyStr j)) eqn:Hj; [|done].
  destruct (truthy value) eqn:Hv; [|done]. cbn [andb].
  apply map_Forall_insert_2; [|done]. split; [|done]. by apply truthy_str.
Qed.

(** X1.  [get_next_train] reads Direction, Line and Station in this
    order and never writes: when one of them is not in the session it
    raises [KeyError] for the first one that is not, and otherwise it
    returns the message made of the three values. *)
Theorem get_next_train_outcome (σ : gmap string pyval) :
  (get_next_train σ).2 = σ
  ∧ match first_unread σ with
    | Some k => (get_next_train σ).1 = Raise (KeyError k)
    | None =>
        ∃ d l s, σ !! "Direction" = Some d ∧ σ !! "Line" = Some l ∧
                 σ !! "Station" = Some s ∧
                 (get_next_train σ).1 = Ok (PyStr (train_msg d l s))
    end.
Proof.
  split; [apply get_next_train_reads|].
  unfold first_unread, get_next_train, bind, getitem. cbn [List.find].
  destruct (σ !! "Direction") as [d|]; [|done].
  destruct (σ !! "Line") as [l|]; [|done].
  destruct (σ !! "Station") as [s|]; [|done].
  by exists d, l, s.
Qed.

(** X2.  Every view answers, none raises: the launch request and the four
    intents that go through the engine answer with a question, and only
    the yes and no intents answer with a statement, leaving the session
    as it is. *)
Theorem statement_only_from_yes_no (rq : request) (st : state) :
  (∃ m, (view rq st).1 = Ok (question (PyStr m)) ∧ rq ≠ YesIntent ∧ rq ≠ NoIntent)
  ∨ (∃ m, view rq st = (Ok (statement (PyStr m)), st) ∧
          (rq = YesIntent ∨ rq = NoIntent)).
Proof.
  destruct rq as [|a b|a|a|a| |]; cbn [view].
  - left. by eexists.
  - left. destruct (slot_view_asks PyNone PyNone st) as [m Hm]. by exists m.
  - left. destruct (slot_view_asks (PyStr "Station") a st) as [m Hm]. by exists m.
  - left. destruct (slot_view_asks (PyStr "Line") a st) as [m Hm]. by exists m.
  - left. destruct (slot_view_asks (PyStr "Direction") a st) as [m Hm]. by exists m.
  - right. eexists. split; [done|]. by left.
  - right. eexists. split; [done|]. by right.
Qed.

(** X3.  The view of the next-train intent drops the station and the line
    that come with the request: when the session has no station it asks
    for the station whatever the two values are, and the session stays
    as it was. *)
Theorem next_train_drops_slot_values (Station Line : pyval) (st : state) :
  attributes st !! "Station" = None →
  next_train Station Line st
  = (Ok (question (PyStr "What station?")),
     mkState (attributes st) (trace st ++ [EvStep 0])).
Proof.
  intros Hnone. unfold next_train, bind.
  rewrite (handle_missing PyNone PyNone st (mkSlot "Station" "What station?")).
  - done.
  - unfold first_missing, schedule_slots, missing_in. cbn [List.find recorded slot_name].
    by rewrite Hnone.
Qed.

Lemma next_train_drops_slot_values_witness :
  next_train (PyStr "Park St") (PyStr "Red") (init ∅)
  = (Ok (question (PyStr "What station?")), mkState ∅ [EvStep 0]).
Proof.
  apply (next_train_drops_slot_values (PyStr "Park St") (PyStr "Red") (init ∅)).
  reflexivity.
Defined.

(** X4.  A slot that has just been told with a non-empty value is not
    asked for in the same turn: the station view does not ask for the
    station, the line view not for the line, the direction view not for
    the direction. *)
Theorem told_slot_not_asked_again (v : pyval) (st : state) :
  truthy v = true →
  (set_station v st).1 ≠ Ok (question (PyStr "What station?"))
  ∧ (set_line v st).1 ≠ Ok (question (PyStr "What line?"))
  ∧ (set_direction v st).1 ≠ Ok (question (PyStr "Inbound or outbound?")).
Proof.
  intros Hv.
  assert (∀ s, s ∈ schedule_slots →
            ((let! r := set_context_and_handle (PyStr (slot_name s)) v in respond r) st).1
            ≠ Ok (question (PyStr (prompt s)))) as Hall.
  { intros s Hin Hq. apply respond_question_inv in Hq.
    apply (asked_slot_missing _ _ _ _ Hin) in Hq.
    unfold recorded in Hq. rewrite Hv in Hq.
    assert (truthy (PyStr (slot_name s)) = true) as Hs.
    { unfold schedule_slots in Hin.
      repeat (apply elem_of_cons in Hin as [->|Hin]); try done.
      by apply elem_of_nil in Hin. }
    rewrite Hs in Hq. cbn [andb] in Hq. by rewrite lookup_insert_eq in Hq. }
  split_and!.
  - apply (Hall (mkSlot "Station" "What station?")). unfold schedule_slots. set_solver.
  - apply (Hall (mkSlot "Line" "What line?")). unfold schedule_slots. set_solver.
  - apply (Hall (mkSlot "Direction" "Inbound or outbound?")).
    unfold schedule_slots. set_solver.
Qed.

Lemma told_slot_not_asked_again_witness :
  (set_station (PyStr "Park St") (init ∅)).1 ≠ Ok (question (PyStr "What station?")).
Proof.
  apply (told_slot_not_asked_again (PyStr "Park St") (init ∅)). reflexivity.
Defined.

(** X5.  Last write wins over a whole conversation: after any sequence
    of calls a key holds the value of the latest call that named it with
    a non-empty value, and what it held before the conversation when no
    call did. *)
Theorem last_write_wins (calls : list (pyval * pyval)) (st : state) (k : string) :
  (∀ v, last_write k calls = Some v →
        attributes (run_calls calls st) !! k = Some v)
  ∧ (last_write k calls = None →
     attributes (run_calls calls st) !! k = attributes st !! k).
Proof.
  split.
  - intros v Hv. by rewrite run_calls_lookup, Hv.
  - intros Hnone. by rewrite run_calls_lookup, Hnone.
Qed.

(** X6.  The engine stores neither an empty name nor an empty or absent
    value: a session in which every name and every value is a non-empty
    string is still such a session after any sequence of calls. *)
Theorem session_stays_clean (calls : list (pyval * pyval)) (st : state) :
  clean (attributes st) → clean (attributes (run_calls calls st)).
Proof.
  revert st. induction calls as [|[slot value] calls IH]; intros st Hc; [done|].
  cbn [run_calls]. apply IH. rewrite handle_attributes. by apply recorded_clean.
Qed.

Lemma session_stays_clean_witness :
  clean (attributes (run_calls
           [ (PyStr "Station", PyStr ""); (PyStr "", PyStr "Red");
             (PyStr "Line", PyNone); (PyStr "Line", PyStr "Red") ] (init ∅))).
Proof.
  apply (session_stays_clean
           [ (PyStr "Station", PyStr ""); (PyStr "", PyStr "Red");
             (PyStr "Line", PyNone); (PyStr "Line", PyStr "Red") ] (init ∅)).
  apply map_Forall_empty.
Defined.

(** X7.  An exception of a handler reaches the caller of the engine as it
    is: when the slots of the first step are all in the session and its
    handler raises, the call raises the same exception, after the
    incoming pair has been recorded. *)
Theorem handler_exception_propagates (seq : Step) (rest : list Step)
    (slot value : pyval) (st : state) (l : list Slot) (e : exn)
    (σ' : gmap string pyval) :
  let σ := attributes (set_context slot value st).2 in
  slots seq = Some l →
  (∀ s, s ∈ l → is_Some (σ !! slot_name s)) →
  intent seq σ = (Raise e, σ') →
  set_context_and_handle_in (seq :: rest) slot value st
  = (Raise e, mkState σ' (trace st ++ [EvStep 0; EvIntent 0 σ])).
Proof.
  intros σ. unfold σ. rewrite set_context_run. cbn [snd attributes].
  intros Hl Hall Hh. apply first_missing_filled in Hall.
  rewrite handle_in_cons. erewrite step_body_filled; [|done|done].
  unfold handle_intent, bind, lift. cbn [attributes trace]. by rewrite Hh.
Qed.

Lemma handler_exception_propagates_witness :
  set_context_and_handle_in
    [mkStep get_next_train (Some [mkSlot "Station" "What station?"]) PyNone]
    (PyStr "Station") (PyStr "Park St") (init ∅)
  = (Raise (KeyError "Direction"),
     mkState {["Station" := PyStr "Park St"]}
             [EvStep 0; EvIntent 0 {["Station" := PyStr "Park St"]}]).
Proof.
  apply (handler_exception_propagates
           (mkStep get_next_train (Some [mkSlot "Station" "What station?"]) PyNone)
           [] (PyStr "Station") (PyStr "Park St") (init ∅)
           [mkSlot "Station" "What station?"] (KeyError "Direction")
           {["Station" := PyStr "Park St"]}).
  - reflexivity.
  - intros s Hs. apply list_elem_of_singleton in Hs as ->. vm_compute. by eexists.
  - vm_compute. reflexivity.
Defined.

(** X8.  A step whose handler returns [None] cannot carry a transition
    message: the concatenation with the three dots raises [TypeError]. *)
Theorem none_result_with_transition_raises (seq : Step) (rest : list Step)
    (slot value : pyval) (st : state) (l : list Slot) (σ' : gmap string pyval) :
  let σ := attributes (set_context slot value st).2 in
  slots seq = Some l →
  (∀ s, s ∈ l → is_Some (σ !! slot_name s)) →
  intent seq σ = (Ok PyNone, σ') →
  truthy (transition_msg seq) = true →
  set_context_and_handle_in (seq :: rest) slot value st
  = (Raise TypeError, mkState σ' (trace st ++ [EvStep 0; EvIntent 0 σ])).
Proof.
  intros σ. unfold σ. rewrite set_context_run. cbn [snd attributes].
  intros Hl Hall Hh Ht. apply first_missing_filled in Hall.
  rewrite handle_in_cons. erewrite step_body_filled; [|done|done].
  unfold handle_intent, bind, lift. cbn [attributes trace]. by rewrite Hh, Ht.
Qed.

Lemma none_result_with_transition_raises_witness :
  set_context_and_handle_in [mkStep send_text (Some []) (PyStr "Anything else?")]
    PyNone PyNone (init ∅)
  = (Raise TypeError, mkState ∅ [EvStep 0; EvIntent 0 ∅]).
Proof.
  apply (none_result_with_transition_raises
           (mkStep send_text (Some []) (PyStr "Anything else?")) []
           PyNone PyNone (init ∅) [] ∅).
  - reflexivity.
  - intros s Hs. by apply elem_of_nil in Hs.
  - reflexivity.
  - reflexivity.
Defined.

(** X9.  Over an empty dialog table the engine records the incoming pair,
    runs no step and returns [None]; the view that unpacks the result
    then raises [TypeError]. *)
Theorem empty_table_unpack_fails (slot value : pyval) (st : state) :
  set_context_and_handle_in [] slot value st = (Ok None, (set_context slot value st).2)
  ∧ handle_and_respond_in [] slot value st
    = (Raise TypeError, (set_context slot value st).2)
  ∧ trace (set_context slot value st).2 = trace st.
Proof.
  unfold handle_and_respond_in, set_context_and_handle_in, bind.
  by rewrite set_context_run.
Qed.

(** X10.  The order of the answers does not matter.  After a conversation
    in which the station, the line and the direction were each told with
    a non-empty value, in any order, any number of times and with any
    other calls in between, the next-train view answers with the train
    for the values told last, followed by the transition question. *)
Theorem all_told_any_order (calls : list (pyval * pyval)) (st : state)
    (a b c Station Line : pyval) :
  last_write "Station" calls = Some a →
  last_write "Line" calls = Some b →
  last_write "Direction" calls = Some c →
  (next_train Station Line (run_calls calls st)).1
  = Ok (question (PyStr ((train_msg c b a +:+ "...") +:+ "Should I text you?"))).
Proof.
  intros Ha Hb Hc. set (st1 := run_calls calls st).
  assert (attributes st1 !! "Station" = Some a) as Hsa
    by (unfold st1; by rewrite run_calls_lookup, Ha).
  assert (attributes st1 !! "Line" = Some b) as Hsb
    by (unfold st1; by rewrite run_calls_lookup, Hb).
  assert (attributes st1 !! "Direction" = Some c) as Hsc
    by (unfold st1; by rewrite run_calls_lookup, Hc).
  assert (first_missing schedule_slots (recorded PyNone PyNone (attributes st1)) = None)
    as Hf.
  { apply first_missing_filled. intros s Hin. unfold schedule_slots in Hin.
    cbn [recorded].
    repeat (apply elem_of_cons in Hin as [->|Hin]); cbn [slot_name]; eauto.
    by apply elem_of_nil in Hin. }
  destruct (handle_filled _ _ _ Hf) as (d & l & x & Hd & Hl & Hx & Hrun).
  cbn [recorded] in Hd, Hl, Hx.
  unfold next_train, bind. rewrite Hrun. cbn. congruence.
Qed.

Lemma all_told_any_order_witness :
  (next_train PyNone PyNone
     (run_calls [ (PyStr "Direction", PyStr "Outbound");
                  (PyStr "Station", PyStr "Alewife");
                  (PyStr "Colour", PyStr "Blue");
                  (PyStr "Line", PyStr "Red");
                  (PyStr "Station", PyStr "Park St") ] (init ∅))).1
  = Ok (question (PyStr "The next Outbound Red train from Park St leaves in 5 minutes....Should I text you?")).
Proof.
  apply (all_told_any_order
           [ (PyStr "Direction", PyStr "Outbound");
             (PyStr "Station", PyStr "Alewife");
             (PyStr "Colour", PyStr "Blue");
             (PyStr "Line", PyStr "Red");
             (PyStr "Station", PyStr "Park St") ] (init ∅)
           (PyStr "Park St") (PyStr "Red") (PyStr "Outbound") PyNone PyNone);
    reflexivity.
Defined.

Lemma last_write_wins_witness :
  attributes (run_calls [ (PyStr "Line", PyStr "Red"); (PyStr "Line", PyStr "Green");
                          (PyStr "Line", PyStr "") ] (init ∅)) !! "Line"
  = Some (PyStr "Green").
Proof.
  apply (proj1 (last_write_wins
                  [ (PyStr "Line", PyStr "Red"); (PyStr "Line", PyStr "Green");
                    (PyStr "Line", PyStr "") ] (init ∅) "Line")).
  reflexivity.
Defined.
